(** * A shallow embedding of svutRun.py (SVUT test runner)

    The Python program is modelled as follows:
    - strings are Stdlib [string]s, with the few [str] methods the script
      uses written out ([split], [startswith], [endswith], [lower], [in],
      slicing [s[-n:]], [os.path.basename], [" ".join]);
    - the environment of the process (the file system queries, the listing
      of the working directory, the result of [git describe], the exit
      status of every [os.system] call) is a set of section variables, so
      every theorem holds for every environment;
    - the script itself runs in a small state monad with early exit: the
      state is the output trace, the number of [os.system] calls made so
      far and the [ARGS] namespace, which the script mutates in place. *)

From Stdlib Require Import String Ascii List Bool ZArith Lia.
Import ListNotations.
Open Scope string_scope.

(** ** Python string helpers *)
Module Py.

(** [s[-n:]]: the last [n] characters, or the whole string when shorter. *)
Definition last_chars (n : nat) (s : string) : string :=
  substring (String.length s - n) n s.

(** [s.startswith(p)] *)
Definition startswith (s p : string) : bool := prefix p s.

(** [s.endswith(x)]: [s[-len(x):] == x]. *)
Definition endswith (s x : string) : bool :=
  String.eqb (last_chars (String.length x) s) x.

(** [s.split(c)] for a one-character separator: always at least one
    segment, empty segments kept. *)
Fixpoint split_aux (c : ascii) (s : string) (cur : string) : list string :=
  match s with
  | EmptyString => [cur]
  | String a r =>
      if Ascii.eqb a c then cur :: split_aux c r EmptyString
      else split_aux c r (cur ++ String a EmptyString)
  end.

Definition split (c : ascii) (s : string) : list string := split_aux c s EmptyString.

(** [os.path.basename(p)]: the text after the last ['/']. *)
Definition basename (p : string) : string :=
  last (split "/" p) EmptyString.

(** [str.lower()] on ASCII text. *)
Definition lower_ascii (a : ascii) : ascii :=
  let n := nat_of_ascii a in
  if (Nat.leb 65 n) && (Nat.leb n 90) then ascii_of_nat (n + 32)%nat else a.

Fixpoint lower (s : string) : string :=
  match s with
  | EmptyString => EmptyString
  | String a r => String (lower_ascii a) (lower r)
  end.

(** [sub in s] for strings. *)
Definition contains (sub s : string) : bool :=
  match index 0 sub s with Some _ => true | None => false end.

(** [sep.join(l)] *)
Definition join (sep : string) (l : list string) : string := String.concat sep l.

(** Truth value of a string ([if s:]). *)
Definition truthy (s : string) : bool :=
  match s with EmptyString => false | _ => true end.

End Py.

(** ** [get_defines] *)
Definition get_defines (defines : string) : string :=
  if negb (Py.truthy defines) then EmptyString
  else
    fold_left
      (fun simdefs d => if Py.truthy d then simdefs ++ "-D" ++ d ++ " " else simdefs)
      (Py.split ";" defines) EmptyString.

(** ** [find_unit_tests] *)
Definition supported_prefix : list string :=
  ["tb_"; "ts_"; "testbench_"; "testsuite_"; "unit_test_"].

Definition supported_suffix : list string :=
  ["_unit_test.v"; "_unit_test.sv";
   "_testbench.v"; "_testbench.sv";
   "_testsuite.v"; "_testsuite.sv";
   "_tb.v"; "_tb.sv"; "_ts.v"; "_ts.sv"].

Section Discovery.

(** [os.path.isfile] relative to the working directory, and
    [os.listdir(os.getcwd())]: the names of the entries directly in the
    working directory. *)
Variable isfile : string -> bool.
Variable listdir_cwd : list string.

(** One iteration of the [for _file in ...] loop: the list [files] after
    the two inner loops (one append per matching suffix, then one per
    matching prefix). *)
Definition discover_step (files : list string) (f : string) : list string :=
  if isfile f then
    let files := fold_left (fun acc suf => if Py.endswith f suf then app acc [f] else acc)
                   supported_suffix files in
    fold_left (fun acc pre => if Py.startswith f pre then app acc [f] else acc)
      supported_prefix files
  else files.

(** [list(set(files))]: Python's set order is unspecified; the model keeps
    the first occurrence of each name. *)
Definition find_unit_tests : list string :=
  nodup string_dec (fold_left discover_step listdir_cwd []).

End Discovery.

(** ** The [ARGS] namespace produced by [argparse]

    [test] is the string ["all"] by default (then [find_unit_tests]
    replaces it) and a list of names when [-test] is given.  [include]
    defaults to [""], which is falsy like the empty list, so it is a list
    here. *)
Inductive test_arg : Type :=
| TestAll
| TestList (l : list string).

Record config : Type := mkConfig {
  test : test_arg;
  dotfile : list string;
  simulator : string;
  main : string;
  define : string;
  vpi : string;
  gui : bool;
  dry : bool;
  include : list string
}.

(** The two in-place assignments of the script. *)
Definition set_test (a : config) (t : test_arg) : config :=
  mkConfig t (dotfile a) (simulator a) (main a) (define a) (vpi a) (gui a) (dry a) (include a).

Definition set_simulator (a : config) (s : string) : config :=
  mkConfig (test a) (dotfile a) s (main a) (define a) (vpi a) (gui a) (dry a) (include a).

(** ** Observable events of a run *)
Inductive event : Type :=
| EvPrint (s : string)              (* print(s) *)
| EvPrintCmds (l : list string)     (* print(CMDS) *)
| EvSystem (cmd : string) (ret : Z) (* os.system(cmd) returning ret *)
| EvGit                             (* subprocess git describe *)
| EvBanner (ev tag : string)        (* print_event(ev, tag) *)
| EvElapsed.                        (* print("Elapsed time:", ...) *)

Record world : Type := mkWorld {
  trace : list event;
  calls : nat;
  args : config
}.

(** ** A state monad with [sys.exit] *)
Inductive outcome (A : Type) : Type :=
| Ret (a : A) (w : world)
| Exit (code : Z) (w : world).
Arguments Ret {A} a w.
Arguments Exit {A} code w.

Definition M (A : Type) : Type := world -> outcome A.

Definition ret {A} (a : A) : M A := fun w => Ret a w.

Definition bind {A B} (m : M A) (f : A -> M B) : M B :=
  fun w => match m w with
           | Ret a w' => f a w'
           | Exit c w' => Exit c w'
           end.

Declare Scope svut_scope.
Notation "x <- m ;; k" := (bind m (fun x => k))
  (at level 61, m at next level, right associativity) : svut_scope.
Notation "m ;; k" := (bind m (fun _ => k))
  (at level 61, right associativity) : svut_scope.
Open Scope svut_scope.

Definition emit (e : event) : M unit :=
  fun w => Ret tt (mkWorld (app (trace w) [e]) (calls w) (args w)).

Definition print (s : string) : M unit := emit (EvPrint s).

Definition sys_exit {A} (code : Z) : M A := fun w => Exit code w.

Definition get_args : M config := fun w => Ret (args w) w.

Definition set_args (a : config) : M unit :=
  fun w => Ret tt (mkWorld (trace w) (calls w) a).

Section Program.

(** The environment of the process. *)
Variable isfile : string -> bool.
Variable listdir_cwd : list string.
Variable cwd scriptdir : string.
(** [filecmp.cmp] *)
Variable filecmp : string -> string -> bool.
(** Output of [git describe --tags --abbrev=0], [None] when it raises. *)
Variable git_describe : option string.
(** Status returned by the [n]-th call of [os.system] on a command. *)
Variable os_system : nat -> string -> Z.

Definition system (cmd : string) : M Z :=
  fun w => let r := os_system (calls w) cmd in
           Ret r (mkWorld (app (trace w) [EvSystem cmd r]) (S (calls w)) (args w)).

(** The concatenation of the dot files that exist, each followed by a space. *)
Fixpoint existing_dotfiles (l : list string) : string :=
  match l with
  | [] => EmptyString
  | dot :: r => (if isfile dot then dot ++ " " else EmptyString) ++ existing_dotfiles r
  end.

Definition add_dotfiles (a : config) (cmd : string) : string :=
  match dotfile a with
  | [] => cmd
  | l => let dotfiles := existing_dotfiles l in
         if Py.truthy dotfiles then cmd ++ "-f " ++ dotfiles ++ " " else cmd
  end.

Definition add_defines (a : config) (cmd : string) : string :=
  if Py.truthy (define a) then cmd ++ get_defines (define a) else cmd.

(** [test[-2:] != ".v" and test[-3:] != ".sv"] *)
Definition bad_extension (t : string) : bool :=
  negb (String.eqb (Py.last_chars 2 t) ".v") && negb (String.eqb (Py.last_chars 3 t) ".sv").

Definition extension_error : string :=
  "ERROR: failed to find supported extension.                Must use either *.v or *.sv".

(** ** [create_iverilog] *)
Definition create_iverilog (a : config) (t : string) : M (list string) :=
  let cmds := ["rm -f icarus.out"] in
  let cmd := "iverilog -g2012 -Wall -o icarus.out " in
  let cmd := add_defines a cmd in
  let cmd := add_dotfiles a cmd in
  let cmd := match include a with
             | [] => cmd
             | incs => cmd ++ "-I " ++ Py.join " " incs ++ " "
             end in
  let cmd := cmd ++ t ++ " " in
  if bad_extension t then print extension_error ;; sys_exit 1
  else
    let cmds := app cmds [cmd] in
    let cmd := "vvp " in
    let cmd := if Py.truthy (vpi a) then cmd ++ vpi a ++ " " else cmd in
    let cmd := cmd ++ "icarus.out " in
    let cmd := if gui a then cmd ++ "-lxt;" else cmd in
    let cmds := app cmds [cmd] in
    let cmds := if gui a then
                  if isfile "wave.gtkw" then app cmds ["gtkwave *.lxt wave.gtkw &"]
                  else app cmds ["gtkwave *.lxt &"]
                else cmds in
    ret cmds.

(** ** [create_verilator] *)
Definition testname_of (t : string) : string :=
  hd EmptyString (Py.split "." (Py.basename t)).

Fixpoint add_incdirs (incs : list string) (cmd : string) : string :=
  match incs with
  | [] => cmd
  | inc :: r => add_incdirs r (cmd ++ "+incdir+" ++ inc ++ " ")
  end.

Definition create_verilator (a : config) (t : string) : M (list string) :=
  let testname := testname_of t in
  let cmds := ["rm -fr build"] in
  let cmd := "verilator -Wall --trace --Mdir build +1800-2017ext+sv " in
  let cmd := cmd ++ "+1800-2005ext+v -Wno-STMTDLY -Wno-UNUSED -Wno-UNDRIVEN -Wno-PINCONNECTEMPTY " in
  let cmd := cmd ++ "-Wpedantic -Wno-VARHIDDEN -Wno-lint " in
  let cmd := add_defines a cmd in
  let cmd := add_dotfiles a cmd in
  let cmd := add_incdirs (include a) cmd in
  if bad_extension t then print extension_error ;; sys_exit 1
  else
    let cmd := cmd ++ "-cc --exe --build -j --top-module " ++ testname ++ " " in
    let cmd := cmd ++ t ++ " " ++ main a in
    let cmds := app cmds [cmd] in
    let cmd := "make -j -C build -f V" ++ testname ++ ".mk V" ++ testname in
    let cmds := app cmds [cmd] in
    let cmd := "build/V" ++ testname in
    let cmds := app cmds [cmd] in
    ret cmds.

(** ** [print_event] and [get_git_tag] *)
Definition print_event (ev tag : string) : M unit := emit (EvBanner ev tag).

Definition get_git_tag : M string :=
  emit EvGit ;;
  match git_describe with
  | Some tag => ret tag
  | None => print "WARNING: Can't get last git tag. Will return v0.0.0" ;; ret "v0.0.0"
  end.

(** ** The body of [__main__] *)

(** Copy [svut_h.sv] into the working directory if absent or different. *)
Definition org_hfile : string := scriptdir ++ "/svut_h.sv".
Definition curr_hfile : string := cwd ++ "/svut_h.sv".
Definition copy_cmd : string := "cp " ++ org_hfile ++ " " ++ cwd.

Definition sync_header : M unit :=
  if negb (isfile curr_hfile) || negb (filecmp curr_hfile org_hfile) then
    print "INFO: Copy newest version of svut_h.sv" ;;
    _ <- system copy_cmd ;;
    ret tt
  else ret tt.

(** [for CMD in CMDS: ...]: the value of [cmdret] after the loop. *)
Fixpoint exec_cmds (cmds : list string) (cmdret : Z) : M Z :=
  match cmds with
  | [] => ret cmdret
  | c :: r =>
      print c ;;
      cmdret <- system c ;;
      if negb (Z.eqb cmdret 0) then
        print ("ERROR: Command failed: " ++ c) ;; ret 1%Z
      else exec_cmds r cmdret
  end.

Definition select_builder (a : config) (t : string) : M (list string) :=
  if Py.contains "iverilog" (simulator a) || Py.contains "icarus" (simulator a) then
    create_iverilog a t
  else if Py.contains "verilator" (simulator a) then
    create_verilator a t
  else
    print "ERROR: Simulator not supported. Icarus is the only option" ;; sys_exit 1.

(** One iteration of [for tests in ARGS.test:].  As in the source, the
    iteration ends with [sys.exit(cmdret)]. *)
Definition run_one (t : string) : M unit :=
  a <- get_args ;;
  set_args (set_simulator a (Py.lower (simulator a))) ;;
  a <- get_args ;;
  cmds <- select_builder a t ;;
  sync_header ;;
  tag <- get_git_tag ;;
  if dry a then
    print ("SVUT " ++ tag ++ " dry-run: ") ;;
    emit (EvPrintCmds cmds) ;;
    sys_exit 0
  else
    print_event "Start" tag ;;
    cmdret <- exec_cmds cmds 0 ;;
    emit EvElapsed ;;
    print_event "Stop" tag ;;
    sys_exit cmdret.

Fixpoint run_tests (l : list string) : M unit :=
  match l with
  | [] => ret tt
  | t :: r => run_one t ;; run_tests r
  end.

Definition main_prog : M unit :=
  a <- get_args ;;
  match test a with
  | TestAll =>
      let l := find_unit_tests isfile listdir_cwd in
      set_args (set_test a (TestList l)) ;;
      run_tests l
  | TestList l => run_tests l
  end.

(** Running the script after [parse_args]: the exit status (0 when the
    script falls off its end) and the final state. *)
Definition run_main (a : config) : Z * world :=
  match main_prog (mkWorld [] 0 a) with
  | Ret _ w => (0%Z, w)
  | Exit c w => (c, w)
  end.

End Program.

(** ** Derived notions used in the statements *)

(** The name test of [find_unit_tests]. *)
Definition is_unit_test_name (f : string) : bool :=
  existsb (Py.startswith f) supported_prefix || existsb (Py.endswith f) supported_suffix.

(** The list the [for tests in ARGS.test] loop iterates over. *)
Definition resolved_tests (isfile : string -> bool) (listdir_cwd : list string) (a : config) :
  list string :=
  match test a with
  | TestAll => find_unit_tests isfile listdir_cwd
  | TestList l => l
  end.

(** The configuration the loop body starts from. *)
Definition resolved_config (isfile : string -> bool) (listdir_cwd : list string) (a : config) :
  config :=
  match test a with
  | TestAll => set_test a (TestList (find_unit_tests isfile listdir_cwd))
  | TestList _ => a
  end.

(** The configuration the builder sees in the first iteration. *)
Definition lowered_config (isfile : string -> bool) (listdir_cwd : list string) (a : config) :
  config :=
  let rc := resolved_config isfile listdir_cwd a in
  set_simulator rc (Py.lower (simulator rc)).

(** First character of a string. *)
Definition first_char (s : string) : option ascii :=
  match s with EmptyString => None | String c _ => Some c end.

(** The command list the selected builder returns, if it does not exit. *)
Definition builder_cmds (isfile : string -> bool) (a : config) (t : string) : option (list string) :=
  match select_builder isfile a t (mkWorld [] 0 a) with
  | Ret cmds _ => Some cmds
  | Exit _ _ => None
  end.

(** The [ARGS] namespace at the end of a run (exit or not). *)
Definition args_of {A} (o : outcome A) : config :=
  match o with Ret _ w => args w | Exit _ w => args w end.

Definition trace_of {A} (o : outcome A) : list event :=
  match o with Ret _ w => trace w | Exit _ w => trace w end.

(** Events a dry run may produce before its header. *)
Definition no_execution_event (copy : string) (e : event) : Prop :=
  match e with
  | EvSystem c _ => c = copy
  | EvBanner _ _ | EvElapsed => False
  | _ => True
  end.

Definition spawns (e : event) : bool :=
  match e with EvSystem _ _ | EvGit => true | _ => false end.

(** The [-D] flags of a define string, written as a right fold. *)
Definition define_flags (segs : list string) : string :=
  fold_right (fun seg s => "-D" ++ seg ++ " " ++ s) EmptyString segs.

(** The [os.system] calls of a trace, with their statuses. *)
Definition system_calls (tr : list event) : list (string * Z) :=
  flat_map (fun e => match e with EvSystem c r => [(c, r)] | _ => [] end) tr.

(** The label [get_git_tag] returns. *)
Definition tag_value (g : option string) : string :=
  match g with Some tag => tag | None => "v0.0.0" end.

(** Each name followed by a space. *)
Definition spaced (l : list string) : string :=
  fold_right (fun d s => d ++ " " ++ s) EmptyString l.

(** The [-f] part of a compile command for the dot files that exist. *)
Definition dotfile_flag (isfile : string -> bool) (l : list string) : string :=
  match filter isfile l with
  | [] => EmptyString
  | ds => "-f " ++ spaced ds ++ " "
  end.

(** The [+incdir+] flags of the Verilator command. *)
Definition incdir_flags (incs : list string) : string :=
  fold_right (fun inc s => "+incdir+" ++ inc ++ " " ++ s) EmptyString incs.

(** ** Facts about the string helpers *)

Lemma append_assoc (s1 s2 s3 : string) : (s1 ++ s2) ++ s3 = s1 ++ (s2 ++ s3).
Proof. induction s1 as [|c s1 IH]; simpl; [reflexivity | now rewrite IH]. Qed.

Lemma append_empty_r (s : string) : s ++ EmptyString = s.
Proof. induction s as [|c s IH]; simpl; [reflexivity | now rewrite IH]. Qed.

Lemma get_defines_fold (l : list string) (acc : string) :
  fold_left (fun simdefs d => if Py.truthy d then simdefs ++ "-D" ++ d ++ " " else simdefs) l acc
  = acc ++ define_flags (filter Py.truthy l).
Proof.
  revert acc; induction l as [|d l IH]; intros acc; simpl.
  - now rewrite append_empty_r.
  - destruct (Py.truthy d); simpl; rewrite IH; [|reflexivity].
    rewrite !append_assoc; simpl; now rewrite !append_assoc.
Qed.

Lemma fold_append_in (p : string -> bool) (f : string) (l : list string) (acc : list string) x :
  In x (fold_left (fun acc y => if p y then app acc [f] else acc) l acc)
  <-> In x acc \/ (x = f /\ existsb p l = true).
Proof.
  revert acc; induction l as [|y l IH]; intros acc; simpl.
  - intuition congruence.
  - rewrite IH; destruct (p y); simpl; rewrite ?in_app_iff; simpl; intuition.
Qed.

Lemma discover_fold_in isfile (l acc : list string) x :
  In x (fold_left (discover_step isfile) l acc)
  <-> In x acc \/ (In x l /\ isfile x = true /\ is_unit_test_name x = true).
Proof.
  revert acc; induction l as [|f l IH]; intros acc; simpl.
  - intuition.
  - rewrite IH; unfold discover_step, is_unit_test_name.
    destruct (isfile f) eqn:Hf.
    + rewrite fold_append_in, fold_append_in, orb_true_iff.
      split.
      * intros [[[H|[-> H]]|[-> H]]|H]; intuition.
      * intros [H|[[->|H] [H1 H2]]]; [intuition | | intuition].
        destruct H2 as [H2|H2];
          [left; right | left; left; right]; auto.
    + split; [intuition|].
      intros [H|[[->|H] [H1 H2]]]; [intuition|congruence|intuition].
Qed.

(** ** Facts about the command builders *)

Lemma list_ascii_of_string_app (s1 s2 : string) :
  list_ascii_of_string (s1 ++ s2) = app (list_ascii_of_string s1) (list_ascii_of_string s2).
Proof. induction s1 as [|c s1 IH]; simpl; [reflexivity | now rewrite IH]. Qed.

Lemma split_aux_hd (c : ascii) (s cur : string) :
  exists rest, cur ++ s = hd EmptyString (Py.split_aux c s cur) ++ rest
               /\ (rest = EmptyString \/ exists r, rest = String c r).
Proof.
  revert cur; induction s as [|a s IH]; intros cur; simpl.
  - exists EmptyString; split; [reflexivity | now left].
  - destruct (Ascii.eqb a c) eqn:Hac.
    + apply Ascii.eqb_eq in Hac; subst a.
      exists (String c s); split; [reflexivity | right; now exists s].
    + destruct (IH (cur ++ String a EmptyString)) as [rest [Hr Hrest]].
      exists rest; split; [|exact Hrest].
      rewrite <- Hr, append_assoc; reflexivity.
Qed.

Lemma split_aux_no_sep (c : ascii) (s cur : string) :
  ~ In c (list_ascii_of_string cur) ->
  Forall (fun seg => ~ In c (list_ascii_of_string seg)) (Py.split_aux c s cur).
Proof.
  revert cur; induction s as [|a s IH]; intros cur Hcur; simpl.
  - constructor; [exact Hcur | constructor].
  - destruct (Ascii.eqb a c) eqn:Hac.
    + constructor; [exact Hcur|]. apply IH; simpl; tauto.
    + apply IH. rewrite list_ascii_of_string_app, in_app_iff; simpl.
      apply Ascii.eqb_neq in Hac. intuition.
Qed.

Lemma Forall_last {A} (P : A -> Prop) (l : list A) (d : A) :
  Forall P l -> P d -> P (last l d).
Proof.
  induction 1 as [|x l Hx Hl IH]; intros Hd; [exact Hd|].
  destruct l as [|y l]; [exact Hx | apply IH, Hd].
Qed.

Lemma Forall_hd {A} (P : A -> Prop) (l : list A) (d : A) :
  Forall P l -> P d -> P (hd d l).
Proof. destruct 1; auto. Qed.

Lemma top_module_flag (x n z : string) :
  exists pre post,
    (x ++ "-cc --exe --build -j --top-module " ++ n ++ " ") ++ z
    = pre ++ "--top-module " ++ n ++ " " ++ post.
Proof.
  exists (x ++ "-cc --exe --build -j "), z.
  rewrite !append_assoc; reflexivity.
Qed.

Lemma bad_extension_endswith (t : string) :
  bad_extension t = negb (Py.endswith t ".v") && negb (Py.endswith t ".sv").
Proof. reflexivity. Qed.

(** ** Facts about the main loop *)

(** A computation that ends in [sys.exit] on every path. *)
Definition always_exits {A} (m : M A) : Prop :=
  forall w, exists c w', m w = Exit c w'.

Lemma bind_always_exits {A B} (m : M A) (f : A -> M B) :
  (forall x, always_exits (f x)) -> always_exits (bind m f).
Proof.
  intros Hf w; unfold bind.
  destruct (m w) as [x w'|c w']; [apply Hf | eauto].
Qed.

Lemma sys_exit_always_exits {A} (c : Z) : always_exits (@sys_exit A c).
Proof. intros w; eauto. Qed.

(** Every iteration of the loop ends with [sys.exit]. *)
Lemma run_one_exits isfile cwd scriptdir filecmp git_describe os_system (t : string) :
  always_exits (run_one isfile cwd scriptdir filecmp git_describe os_system t).
Proof.
  unfold run_one.
  repeat (apply bind_always_exits; intros ?).
  destruct (dry _); repeat (apply bind_always_exits; intros ?); apply sys_exit_always_exits.
Qed.

Lemma run_tests_cons isfile cwd scriptdir filecmp git_describe os_system t r w :
  run_tests isfile cwd scriptdir filecmp git_describe os_system (t :: r) w
  = run_one isfile cwd scriptdir filecmp git_describe os_system t w.
Proof.
  simpl; unfold bind.
  destruct (run_one_exits isfile cwd scriptdir filecmp git_describe os_system t w)
    as [c [w' ->]].
  reflexivity.
Qed.

Lemma main_prog_first isfile listdir_cwd cwd scriptdir filecmp git_describe os_system a t r :
  resolved_tests isfile listdir_cwd a = t :: r ->
  main_prog isfile listdir_cwd cwd scriptdir filecmp git_describe os_system (mkWorld [] 0 a)
  = run_one isfile cwd scriptdir filecmp git_describe os_system t
      (mkWorld [] 0 (resolved_config isfile listdir_cwd a)).
Proof.
  unfold resolved_tests, resolved_config, main_prog, bind, get_args; simpl.
  destruct (test a) as [|l]; intros Hl; rewrite Hl; apply run_tests_cons.
Qed.

Lemma select_builder_bad_extension isfile a t w :
  bad_extension t = true ->
  exists msg, select_builder isfile a t w
              = Exit 1 (mkWorld (app (trace w) [EvPrint msg]) (calls w) (args w)).
Proof.
  intros Hext; unfold select_builder.
  destruct (_ || _).
  - exists extension_error. cbv beta zeta delta [create_iverilog]. now rewrite Hext.
  - destruct (Py.contains _ _).
    + exists extension_error. cbv beta zeta delta [create_verilator]. now rewrite Hext.
    + eexists; reflexivity.
Qed.

(** ** The [ARGS] namespace through a run *)

Definition keeps_args {A} (m : M A) : Prop := forall w, args_of (m w) = args w.

Lemma bind_keeps_args {A B} (m : M A) (f : A -> M B) :
  keeps_args m -> (forall x, keeps_args (f x)) -> keeps_args (bind m f).
Proof.
  intros Hm Hf w; specialize (Hm w); unfold bind.
  destruct (m w) as [x w'|c w']; simpl in *; [rewrite Hf; exact Hm | exact Hm].
Qed.

Lemma ret_keeps_args {A} (x : A) : keeps_args (ret x).
Proof. intros w; reflexivity. Qed.

Lemma emit_keeps_args (e : event) : keeps_args (emit e).
Proof. intros w; reflexivity. Qed.

Lemma print_keeps_args (s : string) : keeps_args (print s).
Proof. intros w; reflexivity. Qed.

Lemma sys_exit_keeps_args {A} (c : Z) : keeps_args (@sys_exit A c).
Proof. intros w; reflexivity. Qed.

Lemma system_keeps_args os_system (c : string) : keeps_args (system os_system c).
Proof. intros w; reflexivity. Qed.

Create HintDb keeps.
#[local] Hint Resolve ret_keeps_args emit_keeps_args print_keeps_args sys_exit_keeps_args
  system_keeps_args : keeps.

Ltac keeps := repeat (apply bind_keeps_args; [eauto with keeps | intros ?]); eauto with keeps.

Lemma select_builder_keeps_args isfile a t : keeps_args (select_builder isfile a t).
Proof.
  unfold select_builder.
  destruct (_ || _); [|destruct (Py.contains _ _)].
  - intros w; cbv beta zeta delta [create_iverilog]. destruct (bad_extension t); reflexivity.
  - intros w; cbv beta zeta delta [create_verilator]. destruct (bad_extension t); reflexivity.
  - keeps.
Qed.

Lemma sync_header_keeps_args isfile cwd scriptdir filecmp os_system :
  keeps_args (sync_header isfile cwd scriptdir filecmp os_system).
Proof. unfold sync_header; destruct (_ || _); keeps. Qed.

Lemma get_git_tag_keeps_args git_describe : keeps_args (get_git_tag git_describe).
Proof. unfold get_git_tag; destruct git_describe; keeps. Qed.

Lemma exec_cmds_keeps_args os_system cmds cmdret : keeps_args (exec_cmds os_system cmds cmdret).
Proof.
  revert cmdret; induction cmds as [|c r IH]; intros cmdret; simpl.
  - keeps.
  - keeps. destruct (negb _); keeps.
Qed.

#[local] Hint Resolve select_builder_keeps_args sync_header_keeps_args get_git_tag_keeps_args
  exec_cmds_keeps_args : keeps.

Lemma bind_get_args {A} (k : config -> M A) w : bind get_args k w = k (args w) w.
Proof. reflexivity. Qed.

Lemma bind_set_args {A} a (k : unit -> M A) w :
  bind (set_args a) k w = k tt (mkWorld (trace w) (calls w) a).
Proof. reflexivity. Qed.

Lemma run_one_args isfile cwd scriptdir filecmp git_describe os_system t w :
  args_of (run_one isfile cwd scriptdir filecmp git_describe os_system t w)
  = set_simulator (args w) (Py.lower (simulator (args w))).
Proof.
  unfold run_one. rewrite bind_get_args, bind_set_args, bind_get_args.
  match goal with |- args_of (?m ?w) = _ => assert (H : keeps_args m) end.
  { keeps. destruct (dry _); keeps. }
  rewrite H; reflexivity.
Qed.

Lemma main_prog_run isfile listdir_cwd cwd scriptdir filecmp git_describe os_system a :
  main_prog isfile listdir_cwd cwd scriptdir filecmp git_describe os_system (mkWorld [] 0 a)
  = run_tests isfile cwd scriptdir filecmp git_describe os_system
      (resolved_tests isfile listdir_cwd a) (mkWorld [] 0 (resolved_config isfile listdir_cwd a)).
Proof.
  unfold resolved_tests, resolved_config, main_prog, bind, get_args; simpl.
  destruct (test a); reflexivity.
Qed.

Lemma run_main_outcome isfile listdir_cwd cwd scriptdir filecmp git_describe os_system a :
  run_main isfile listdir_cwd cwd scriptdir filecmp git_describe os_system a
  = match main_prog isfile listdir_cwd cwd scriptdir filecmp git_describe os_system
            (mkWorld [] 0 a) with
    | Ret _ w => (0%Z, w)
    | Exit c w => (c, w)
    end.
Proof. reflexivity. Qed.

(** ** Shape of the constructed commands *)

Lemma add_defines_head a c r : exists r', add_defines a (String c r) = String c r'.
Proof. unfold add_defines; destruct (Py.truthy (define a)); eexists; reflexivity. Qed.

Lemma add_dotfiles_head isfile a c r : exists r', add_dotfiles isfile a (String c r) = String c r'.
Proof.
  unfold add_dotfiles; destruct (dotfile a); [eexists; reflexivity|].
  destruct (Py.truthy _); eexists; reflexivity.
Qed.

Lemma add_incdirs_head incs c r : exists r', add_incdirs incs (String c r) = String c r'.
Proof.
  revert r; induction incs as [|inc incs IH]; intros r; simpl; [eexists; reflexivity|].
  apply IH.
Qed.

Ltac cmd_heads :=
  repeat match goal with
  | |- context [add_defines ?a (String ?c ?r)] =>
      let r' := fresh "r" in let H := fresh "H" in
      destruct (add_defines_head a c r) as [r' H]; rewrite H; clear H
  | |- context [add_dotfiles ?i ?a (String ?c ?r)] =>
      let r' := fresh "r" in let H := fresh "H" in
      destruct (add_dotfiles_head i a c r) as [r' H]; rewrite H; clear H
  | |- context [add_incdirs ?l (String ?c ?r)] =>
      let r' := fresh "r" in let H := fresh "H" in
      destruct (add_incdirs_head l c r) as [r' H]; rewrite H; clear H
  end.

Lemma builder_cmds_world isfile a t cmds :
  builder_cmds isfile a t = Some cmds -> forall w, select_builder isfile a t w = Ret cmds w.
Proof.
  unfold builder_cmds, select_builder; intros H w.
  destruct (_ || _); [|destruct (Py.contains _ _)].
  - revert H; cbv beta zeta delta [create_iverilog].
    destruct (bad_extension t); [discriminate|].
    intros H; injection H as <-; reflexivity.
  - revert H; cbv beta zeta delta [create_verilator].
    destruct (bad_extension t); [discriminate|].
    intros H; injection H as <-; reflexivity.
  - discriminate.
Qed.

(** No constructed command starts with the letter [c]. *)
Lemma builder_cmds_first_char isfile a t cmds :
  builder_cmds isfile a t = Some cmds -> Forall (fun c => first_char c <> Some "c"%char) cmds.
Proof.
  unfold builder_cmds, select_builder.
  destruct (_ || _); [|destruct (Py.contains _ _)].
  - cbv beta zeta delta [create_iverilog].
    destruct (bad_extension t); [discriminate|].
    intros H; injection H as <-. cbn [append]. cmd_heads.
    destruct (include a); destruct (gui a); try destruct (isfile _);
      destruct (Py.truthy (vpi a)); simpl; repeat constructor; discriminate.
  - cbv beta zeta delta [create_verilator].
    destruct (bad_extension t); [discriminate|].
    intros H; injection H as <-. cbn [append]. cmd_heads.
    simpl; repeat constructor; discriminate.
  - discriminate.
Qed.

(** ** Claims *)

(** C7: [get_defines] maps ["A=1;B;;C=3"] to ["-DA=1 -DB -DC=3 "]; in
    general every non-empty [;]-separated segment becomes [-D<segment>]
    followed by a space, and empty segments give no flag. *)
Theorem get_defines_spec :
  get_defines "A=1;B;;C=3" = "-DA=1 -DB -DC=3 "
  /\ forall d, get_defines d = define_flags (filter Py.truthy (Py.split ";" d)).
Proof.
  split; [reflexivity|].
  intros d; unfold get_defines; destruct d as [|c r]; [reflexivity|].
  simpl negb; cbv iota; rewrite get_defines_fold; reflexivity.
Qed.

(** A name with both a prefix and a suffix is listed once. *)
Example find_unit_tests_both :
  find_unit_tests (fun _ => true) ["tb_adder_tb.sv"; "notes.txt"; "ts_x.v"]
  = ["tb_adder_tb.sv"; "ts_x.v"].
Proof. reflexivity. Qed.

(** C6: discovery returns exactly the entries of the working directory
    listing that are regular files and whose name starts with a supported
    prefix or ends with a supported suffix, each exactly once. *)
Theorem find_unit_tests_spec (isfile : string -> bool) (listdir_cwd : list string) :
  (forall x, In x (find_unit_tests isfile listdir_cwd)
             <-> In x listdir_cwd /\ isfile x = true /\ is_unit_test_name x = true)
  /\ NoDup (find_unit_tests isfile listdir_cwd).
Proof.
  unfold find_unit_tests; split.
  - intros x; rewrite nodup_In, discover_fold_in; simpl; intuition.
  - apply NoDup_nodup.
Qed.

(** C10: [create_verilator] does not read [gui] nor [vpi]: changing them
    leaves its result (the command list, or the exit) unchanged. *)
Theorem create_verilator_ignores_gui_vpi (isfile : string -> bool) (a : config)
    (g : bool) (v : string) (t : string) :
  create_verilator isfile
    (mkConfig (test a) (dotfile a) (simulator a) (main a) (define a) v g (dry a) (include a)) t
  = create_verilator isfile a t.
Proof. reflexivity. Qed.

(** C9: the Verilator module name is the part of [os.path.basename] of the
    test path before its first dot (["my_test"] for ["./dir/my_test.sv"]),
    and it is the name given to [--top-module], to the generated makefile
    and to the built binary [build/V<name>]. *)
Theorem create_verilator_testname :
  testname_of "./dir/my_test.sv" = "my_test"
  /\ (forall t, ~ In "/"%char (list_ascii_of_string (Py.basename t))
       /\ ~ In "."%char (list_ascii_of_string (testname_of t))
       /\ exists rest, Py.basename t = testname_of t ++ rest
                       /\ (rest = EmptyString \/ exists r, rest = String "." r))
  /\ (forall isfile a t w, bad_extension t = false ->
       let n := testname_of t in
       exists cmd,
         create_verilator isfile a t w
         = Ret ["rm -fr build"; cmd; "make -j -C build -f V" ++ n ++ ".mk V" ++ n; "build/V" ++ n] w
         /\ exists pre post, cmd = pre ++ "--top-module " ++ n ++ " " ++ post).
Proof.
  split; [reflexivity|]. split.
  - intros t. split; [|split].
    + unfold Py.basename, Py.split.
      apply (Forall_last (fun seg => ~ In "/"%char (list_ascii_of_string seg))); [|simpl; tauto].
      apply split_aux_no_sep; simpl; tauto.
    + unfold testname_of, Py.split.
      apply (Forall_hd (fun seg => ~ In "."%char (list_ascii_of_string seg))); [|simpl; tauto].
      apply split_aux_no_sep; simpl; tauto.
    + unfold testname_of, Py.split.
      apply (split_aux_hd "." (Py.basename t) EmptyString).
  - intros isfile a t w Hext n.
    cbv beta zeta delta [create_verilator]. rewrite Hext. cbv iota.
    eexists; split; [reflexivity|]. apply top_module_flag.
Qed.

(** C8: with GUI mode and a [.v]/[.sv] test, the last command of
    [create_iverilog] launches GTKWave on the dump, with [wave.gtkw] when
    that file exists and without a save file otherwise. *)
Theorem create_iverilog_gui_viewer (isfile : string -> bool) (a : config) (t : string) (w : world)
    (Hext : bad_extension t = false) (Hgui : gui a = true) :
  exists cmds,
    create_iverilog isfile a t w = Ret cmds w
    /\ last cmds EmptyString
       = (if isfile "wave.gtkw" then "gtkwave *.lxt wave.gtkw &" else "gtkwave *.lxt &").
Proof.
  cbv beta zeta delta [create_iverilog]. rewrite Hext, Hgui. cbv iota.
  destruct (isfile "wave.gtkw"); eexists; split; reflexivity.
Qed.

(** C5: for a test name ending neither in [.v] nor in [.sv], both builders
    print the extension error and exit with status 1, leaving the rest of
    the state unchanged (no process is spawned by them). *)
Theorem builders_reject_extension (isfile : string -> bool) (t : string)
    (Hv : Py.endswith t ".v" = false) (Hsv : Py.endswith t ".sv" = false) :
  (forall a w,
    create_iverilog isfile a t w
    = Exit 1 (mkWorld (app (trace w) [EvPrint extension_error]) (calls w) (args w))
    /\ create_verilator isfile a t w
       = Exit 1 (mkWorld (app (trace w) [EvPrint extension_error]) (calls w) (args w)))
  /\ forall listdir_cwd cwd scriptdir filecmp git_describe os_system a rest,
       resolved_tests isfile listdir_cwd a = t :: rest ->
       fst (run_main isfile listdir_cwd cwd scriptdir filecmp git_describe os_system a) = 1%Z
       /\ forallb (fun e => negb (spawns e))
            (trace (snd (run_main isfile listdir_cwd cwd scriptdir filecmp git_describe os_system a)))
          = true.
Proof.
  assert (Hext : bad_extension t = true) by (rewrite bad_extension_endswith, Hv, Hsv; reflexivity).
  split.
  2:{ intros listdir_cwd cwd scriptdir filecmp git_describe os_system a rest Hres.
      unfold run_main. rewrite (main_prog_first _ _ _ _ _ _ _ _ _ _ Hres).
      cbv beta delta [run_one bind get_args set_args trace calls args] iota.
      match goal with |- context [select_builder ?i ?b ?u ?w] =>
        destruct (select_builder_bad_extension i b u w Hext) as [msg ->] end.
      split; reflexivity. }
  intros a w.
  split.
  - cbv beta zeta delta [create_iverilog]. rewrite Hext. reflexivity.
  - cbv beta zeta delta [create_verilator]. rewrite Hext. reflexivity.
Qed.

(** C3 (as stated): no field of [ARGS] changes after parsing.  It fails:
    the loop lower-cases [ARGS.simulator] in place. *)
Lemma config_mutated_by_run :
  let a := mkConfig (TestList ["tb_adder.sv"]) ["files.f"] "Icarus" "sim_main.cpp"
             EmptyString EmptyString false true [] in
  args (snd (run_main (fun _ => true) [] "/work" "/svut" (fun _ _ => true) (Some "v1.0")
                 (fun _ _ => 0%Z) a)) <> a.
Proof. vm_compute. intros H. discriminate H. Qed.

(** C3 (amended): after parsing, the script assigns two fields of [ARGS]:
    [test] (replaced by the discovered files when it is the default
    ["all"]) and [simulator] (lower-cased exactly when a test is
    processed, unchanged when there is none); dotfiles, include directories,
    defines, GUI flag, dry-run flag, VPI string and Verilator main file
    keep their parsed values through discovery, command construction and
    execution. *)
Theorem run_main_args (isfile : string -> bool) (listdir_cwd : list string)
    (cwd scriptdir : string) (filecmp : string -> string -> bool)
    (git_describe : option string) (os_system : nat -> string -> Z) (a : config) :
  let a' := args (snd (run_main isfile listdir_cwd cwd scriptdir filecmp git_describe os_system a)) in
  dotfile a' = dotfile a /\ main a' = main a /\ define a' = define a /\ vpi a' = vpi a
  /\ gui a' = gui a /\ dry a' = dry a /\ include a' = include a
  /\ test a' = test (resolved_config isfile listdir_cwd a)
  /\ simulator a' = match resolved_tests isfile listdir_cwd a with
                     | [] => simulator a
                     | _ :: _ => Py.lower (simulator a)
                     end.
Proof.
  intros a'.
  assert (Hargs : a' = match resolved_tests isfile listdir_cwd a with
                       | [] => resolved_config isfile listdir_cwd a
                       | _ :: _ => set_simulator (resolved_config isfile listdir_cwd a)
                                     (Py.lower (simulator (resolved_config isfile listdir_cwd a)))
                       end).
  { subst a'. rewrite run_main_outcome, main_prog_run.
    destruct (resolved_tests isfile listdir_cwd a) as [|t r].
    - reflexivity.
    - rewrite run_tests_cons.
      match goal with |- context [run_one ?i ?c ?s ?f ?g ?o t ?w] =>
        pose proof (run_one_args i c s f g o t w) as H; destruct (run_one i c s f g o t w) end;
      simpl in *; exact H. }
  rewrite Hargs. unfold resolved_config.
  destruct (resolved_tests isfile listdir_cwd a); destruct (test a); simpl; intuition.
Qed.

(** C4: in dry-run mode, once the command list of the first test has been
    built (supported simulator, [.v]/[.sv] name), the script prints the version header
    and the whole command list of that test as its last output and exits
    with status 0; before that it prints no start banner and no elapsed
    time, and the only command it hands to [os.system] is the copy of
    [svut_h.sv], which is none of the constructed commands (so none of them
    runs and no [icarus.out] is built). *)
Theorem dry_run_prints_commands (isfile : string -> bool) (listdir_cwd : list string)
    (cwd scriptdir : string) (filecmp : string -> string -> bool)
    (git_describe : option string) (os_system : nat -> string -> Z) (a : config)
    (t : string) (rest cmds : list string)
    (Hdry : dry a = true)
    (Hres : resolved_tests isfile listdir_cwd a = t :: rest)
    (Hb : builder_cmds isfile (lowered_config isfile listdir_cwd a) t = Some cmds) :
  let r := run_main isfile listdir_cwd cwd scriptdir filecmp git_describe os_system a in
  fst r = 0%Z
  /\ (exists pre tag, trace (snd r) = app pre [EvPrint ("SVUT " ++ tag ++ " dry-run: "); EvPrintCmds cmds]
        /\ Forall (no_execution_event (copy_cmd cwd scriptdir)) pre)
  /\ ~ In (copy_cmd cwd scriptdir) cmds.
Proof.
  intros r; subst r.
  split; [|split].
  3:{ intros Hin. apply builder_cmds_first_char in Hb.
      rewrite Forall_forall in Hb. apply (Hb _ Hin). reflexivity. }
  all: rewrite run_main_outcome, (main_prog_first _ _ _ _ _ _ _ _ _ _ Hres).
  all: unfold run_one; rewrite bind_get_args, bind_set_args, bind_get_args.
  all: unfold lowered_config in Hb; cbn [args trace calls].
  all: unfold bind at 1; rewrite (builder_cmds_world _ _ _ _ Hb).
  all: assert (Hd : dry (resolved_config isfile listdir_cwd a) = true)
         by (unfold resolved_config; destruct (test a); exact Hdry).
  all: cbv beta; unfold sync_header, get_git_tag.
  all: destruct (negb (isfile _) || _); destruct git_describe.
  all: cbv beta delta [bind print emit ret system sys_exit] iota.
  all: cbn [dry set_simulator args trace calls]; rewrite Hd; cbn [trace].
  1-4: reflexivity.
  all: cbn [snd trace]; rewrite <- app_assoc; do 2 eexists; split; [reflexivity|].
  all: simpl; repeat constructor.
Qed.

(** C1 (code): two tests, the last command of the first one fails
    ([os.system] returns 256 on its third call) and the second test's
    commands would all succeed.  The script exits with status 1 after the
    first test: its [sys.exit(cmdret)] sits inside the loop, so exactly the
    three commands of [tb_a.v] run and none of [tb_b.v]. *)
Theorem multi_test_exit_first_test :
  let a := mkConfig (TestList ["tb_a.v"; "tb_b.v"]) [] "icarus" "sim_main.cpp"
             EmptyString EmptyString false false [] in
  let sys := fun (n : nat) (_ : string) => if Nat.eqb n 2 then 256%Z else 0%Z in
  let r := run_main (fun _ => true) [] "/work" "/svut" (fun _ _ => true) (Some "v1.0") sys a in
  fst r = 1%Z
  /\ calls (snd r) = 3%nat
  /\ forallb (fun e => match e with EvSystem c _ => negb (Py.contains "tb_b.v" c) | _ => true end)
       (trace (snd r)) = true.
Proof. vm_compute. repeat split. Qed.

(** C2 (code): whatever the number of tests, the run is the run of the
    first test alone, which always ends in [sys.exit]; later tests are
    never attempted. *)
Theorem run_main_first_test_only (isfile : string -> bool) (listdir_cwd : list string)
    (cwd scriptdir : string) (filecmp : string -> string -> bool)
    (git_describe : option string) (os_system : nat -> string -> Z) (a : config)
    (t : string) (rest : list string)
    (Hres : resolved_tests isfile listdir_cwd a = t :: rest) :
  exists c w',
    main_prog isfile listdir_cwd cwd scriptdir filecmp git_describe os_system (mkWorld [] 0 a)
    = Exit c w'
    /\ run_one isfile cwd scriptdir filecmp git_describe os_system t
         (mkWorld [] 0 (resolved_config isfile listdir_cwd a))
       = Exit c w'.
Proof.
  rewrite (main_prog_first _ _ _ _ _ _ _ _ _ _ Hres).
  destruct (run_one_exits isfile cwd scriptdir filecmp git_describe os_system t
              (mkWorld [] 0 (resolved_config isfile listdir_cwd a))) as [c [w' ->]].
  eauto.
Qed.

(** ** Witnesses *)

Lemma run_main_first_test_only_witness :
  resolved_tests (fun _ => true) [] (mkConfig (TestList ["tb_a.v"; "tb_b.v"]) [] "icarus"
      "sim_main.cpp" EmptyString EmptyString false false []) = "tb_a.v" :: ["tb_b.v"]
  /\ exists c w',
    main_prog (fun _ => true) [] "/work" "/svut" (fun _ _ => true) (Some "v1.0") (fun _ _ => 0%Z)
      (mkWorld [] 0 (mkConfig (TestList ["tb_a.v"; "tb_b.v"]) [] "icarus"
                       "sim_main.cpp" EmptyString EmptyString false false []))
    = Exit c w'
    /\ run_one (fun _ => true) "/work" "/svut" (fun _ _ => true) (Some "v1.0") (fun _ _ => 0%Z)
         "tb_a.v"
         (mkWorld [] 0 (resolved_config (fun _ => true) []
                          (mkConfig (TestList ["tb_a.v"; "tb_b.v"]) [] "icarus"
                             "sim_main.cpp" EmptyString EmptyString false false [])))
       = Exit c w'.
Proof.
  split; [reflexivity|].
  apply (run_main_first_test_only (fun _ => true) [] "/work" "/svut" (fun _ _ => true)
           (Some "v1.0") (fun _ _ => 0%Z) _ "tb_a.v" ["tb_b.v"]).
  reflexivity.
Defined.

Lemma dry_run_prints_commands_witness :
  dry (mkConfig (TestList ["tb_adder.sv"]) ["files.f"] "icarus" "sim_main.cpp"
         EmptyString EmptyString false true []) = true
  /\ resolved_tests (fun _ => false) []
       (mkConfig (TestList ["tb_adder.sv"]) ["files.f"] "icarus" "sim_main.cpp"
          EmptyString EmptyString false true []) = "tb_adder.sv" :: []
  /\ builder_cmds (fun _ => false)
       (lowered_config (fun _ => false) []
          (mkConfig (TestList ["tb_adder.sv"]) ["files.f"] "icarus" "sim_main.cpp"
             EmptyString EmptyString false true [])) "tb_adder.sv"
     = Some ["rm -f icarus.out"; "iverilog -g2012 -Wall -o icarus.out tb_adder.sv ";
             "vvp icarus.out "]
  /\ let r := run_main (fun _ => false) [] "/work" "/svut" (fun _ _ => true) (Some "v1.0")
                (fun _ _ => 0%Z)
                (mkConfig (TestList ["tb_adder.sv"]) ["files.f"] "icarus" "sim_main.cpp"
                   EmptyString EmptyString false true []) in
     fst r = 0%Z
     /\ (exists pre tag, trace (snd r)
           = app pre [EvPrint ("SVUT " ++ tag ++ " dry-run: ");
                      EvPrintCmds ["rm -f icarus.out";
                                   "iverilog -g2012 -Wall -o icarus.out tb_adder.sv ";
                                   "vvp icarus.out "]]
           /\ Forall (no_execution_event (copy_cmd "/work" "/svut")) pre)
     /\ ~ In (copy_cmd "/work" "/svut")
            ["rm -f icarus.out"; "iverilog -g2012 -Wall -o icarus.out tb_adder.sv ";
             "vvp icarus.out "].
Proof.
  split; [reflexivity|]. split; [reflexivity|]. split; [vm_compute; reflexivity|].
  apply (dry_run_prints_commands (fun _ => false) [] "/work" "/svut" (fun _ _ => true)
           (Some "v1.0") (fun _ _ => 0%Z) _ "tb_adder.sv" []); [reflexivity | reflexivity |].
  vm_compute; reflexivity.
Defined.

Lemma builders_reject_extension_witness :
  Py.endswith "foo.c" ".v" = false /\ Py.endswith "foo.c" ".sv" = false
  /\ (forall a w,
        create_iverilog (fun _ => true) a "foo.c" w
        = Exit 1 (mkWorld (app (trace w) [EvPrint extension_error]) (calls w) (args w))
        /\ create_verilator (fun _ => true) a "foo.c" w
           = Exit 1 (mkWorld (app (trace w) [EvPrint extension_error]) (calls w) (args w)))
  /\ forall listdir_cwd cwd scriptdir filecmp git_describe os_system a rest,
       resolved_tests (fun _ => true) listdir_cwd a = "foo.c" :: rest ->
       fst (run_main (fun _ => true) listdir_cwd cwd scriptdir filecmp git_describe os_system a)
       = 1%Z
       /\ forallb (fun e => negb (spawns e))
            (trace (snd (run_main (fun _ => true) listdir_cwd cwd scriptdir filecmp
                           git_describe os_system a)))
          = true.
Proof.
  split; [reflexivity|]. split; [reflexivity|].
  apply (builders_reject_extension (fun _ => true) "foo.c"); reflexivity.
Defined.

Lemma create_iverilog_gui_viewer_witness :
  bad_extension "tb_a.sv" = false
  /\ gui (mkConfig (TestList ["tb_a.sv"]) [] "icarus" "sim_main.cpp"
            EmptyString EmptyString true false []) = true
  /\ exists cmds,
       create_iverilog (fun s => String.eqb s "wave.gtkw")
         (mkConfig (TestList ["tb_a.sv"]) [] "icarus" "sim_main.cpp"
            EmptyString EmptyString true false []) "tb_a.sv" (mkWorld [] 0
         (mkConfig (TestList ["tb_a.sv"]) [] "icarus" "sim_main.cpp"
            EmptyString EmptyString true false []))
       = Ret cmds (mkWorld [] 0
         (mkConfig (TestList ["tb_a.sv"]) [] "icarus" "sim_main.cpp"
            EmptyString EmptyString true false []))
       /\ last cmds EmptyString
          = (if String.eqb "wave.gtkw" "wave.gtkw" then "gtkwave *.lxt wave.gtkw &"
             else "gtkwave *.lxt &").
Proof.
  split; [reflexivity|]. split; [reflexivity|].
  apply (create_iverilog_gui_viewer (fun s => String.eqb s "wave.gtkw")); reflexivity.
Defined.

(** ** Further properties of the script *)

Lemma system_calls_app (l1 l2 : list event) :
  system_calls (app l1 l2) = app (system_calls l1) (system_calls l2).
Proof. unfold system_calls; apply flat_map_app. Qed.

(** [exec_cmds] runs the commands in order and stops at the first one
    whose status is non-zero: the commands handed to [os.system] are a
    prefix of the list, one call each; the result is 0 when every command
    ran and returned 0, and otherwise 1, the last call being the only
    failing one and the last output the diagnostic naming it. *)
Theorem exec_cmds_stops_at_first_failure (os_system : nat -> string -> Z)
    (cmds : list string) (w : world) :
  exists r new k,
    exec_cmds os_system cmds 0 w = Ret r (mkWorld (app (trace w) new) (calls w + k) (args w))
    /\ map fst (system_calls new) = firstn k cmds
    /\ ((r = 0%Z /\ k = length cmds /\ Forall (fun p => snd p = 0%Z) (system_calls new))
        \/ (r = 1%Z /\ exists pre c rc,
              system_calls new = app pre [(c, rc)] /\ rc <> 0%Z
              /\ Forall (fun p => snd p = 0%Z) pre
              /\ last new EvGit = EvPrint ("ERROR: Command failed: " ++ c))).
Proof.
  revert w; induction cmds as [|c cs IH]; intros [tr n a].
  - exists 0%Z, [], 0%nat; simpl. rewrite app_nil_r, Nat.add_0_r.
    split; [reflexivity|]. split; [reflexivity|]. left; repeat split; constructor.
  - cbn [exec_cmds]. unfold bind, print, emit, system; cbn [trace calls args].
    destruct (Z.eqb (os_system n c) 0) eqn:Hc; cbn [negb].
    + apply Z.eqb_eq in Hc. rewrite Hc.
      destruct (IH (mkWorld (app (app tr [EvPrint c]) [EvSystem c 0]) (S n) a))
        as [r [new [k [Hrun [Hpre Hres]]]]].
      cbn [trace calls args] in Hrun.
      exists r, (EvPrint c :: EvSystem c 0 :: new), (S k).
      split; [rewrite Hrun, <- !app_assoc, Nat.add_succ_r; reflexivity|].
      split; [simpl; rewrite Hpre; reflexivity|].
      destruct Hres as [[-> [-> Hall]] | [-> [pre [c' [rc [Hs [Hrc [Hall Hlast]]]]]]]].
      * left; repeat split; simpl; [constructor; [reflexivity | exact Hall]].
      * right; split; [reflexivity|].
        exists ((c, 0%Z) :: pre), c', rc; simpl; rewrite Hs.
        split; [reflexivity|]. split; [exact Hrc|]. split; [constructor; [reflexivity | exact Hall]|].
        destruct new as [|e new]; [simpl in Hs; destruct pre; discriminate Hs|]. exact Hlast.
    + exists 1%Z, [EvPrint c; EvSystem c (os_system n c); EvPrint ("ERROR: Command failed: " ++ c)], 1%nat.
      split; [unfold ret; cbn [trace calls args]; rewrite <- !app_assoc, Nat.add_1_r; reflexivity|].
      split; [reflexivity|].
      right; split; [reflexivity|].
      exists [], c, (os_system n c); simpl.
      split; [reflexivity|]. split; [intros H; rewrite H in Hc; discriminate|].
      split; [constructor | reflexivity].
Qed.

(** Postconditions: the value of a normal return satisfies [P], and every
    [sys.exit] status is 0 or 1. *)
Definition post {A} (P : A -> Prop) (m : M A) : Prop :=
  forall w, match m w with Ret x _ => P x | Exit c _ => c = 0%Z \/ c = 1%Z end.

Lemma post_bind {A B} (P : A -> Prop) (Q : B -> Prop) (m : M A) (f : A -> M B) :
  post P m -> (forall x, P x -> post Q (f x)) -> post Q (bind m f).
Proof.
  intros Hm Hf w; specialize (Hm w); unfold bind.
  destruct (m w) as [x w'|c w']; [apply Hf, Hm | exact Hm].
Qed.

Lemma post_true_of_keeps_ret {A} (m : M A) :
  (forall w, exists x w', m w = Ret x w') -> post (fun _ => True) m.
Proof. intros H w; destruct (H w) as [x [w' ->]]; exact I. Qed.

Lemma post_sys_exit {A} (P : A -> Prop) (c : Z) : c = 0%Z \/ c = 1%Z -> post P (sys_exit c).
Proof. intros Hc w; exact Hc. Qed.

Lemma post_ret {A} (P : A -> Prop) (x : A) : P x -> post P (ret x).
Proof. intros Hx w; exact Hx. Qed.

Lemma post_emit (e : event) : post (fun _ => True) (emit e).
Proof. apply post_true_of_keeps_ret; intros w; do 2 eexists; reflexivity. Qed.

Lemma post_system os_system c : post (fun _ => True) (system os_system c).
Proof. apply post_true_of_keeps_ret; intros w; do 2 eexists; reflexivity. Qed.

Lemma post_select_builder isfile a t : post (fun _ => True) (select_builder isfile a t).
Proof.
  intros w; unfold select_builder.
  destruct (_ || _); [|destruct (Py.contains _ _)].
  - cbv beta zeta delta [create_iverilog]; destruct (bad_extension t); [right|]; reflexivity.
  - cbv beta zeta delta [create_verilator]; destruct (bad_extension t); [right|]; reflexivity.
  - right; reflexivity.
Qed.

Lemma post_sync_header isfile cwd scriptdir filecmp os_system :
  post (fun _ => True) (sync_header isfile cwd scriptdir filecmp os_system).
Proof.
  unfold sync_header; destruct (_ || _); [|apply post_ret; exact I].
  apply (post_bind (fun _ => True)); [apply post_emit|intros ? _].
  apply (post_bind (fun _ => True)); [apply post_system|intros ? _].
  apply post_ret; exact I.
Qed.

Lemma post_get_git_tag git_describe : post (fun _ => True) (get_git_tag git_describe).
Proof.
  unfold get_git_tag.
  apply (post_bind (fun _ => True)); [apply post_emit|intros ? _].
  destruct git_describe; [apply post_ret; exact I|].
  apply (post_bind (fun _ => True)); [apply post_emit|intros ? _].
  apply post_ret; exact I.
Qed.

Lemma post_exec_cmds os_system cmds :
  post (fun r => r = 0%Z \/ r = 1%Z) (exec_cmds os_system cmds 0).
Proof.
  intros w.
  destruct (exec_cmds_stops_at_first_failure os_system cmds w)
    as [r [new [k [-> [_ [[-> _] | [-> _]]]]]]]; auto.
Qed.

Lemma post_run_one isfile cwd scriptdir filecmp git_describe os_system t :
  post (fun _ => True) (run_one isfile cwd scriptdir filecmp git_describe os_system t).
Proof.
  unfold run_one.
  apply (post_bind (fun _ => True)); [apply post_true_of_keeps_ret; intros w; do 2 eexists; reflexivity|intros a _].
  apply (post_bind (fun _ => True)); [apply post_true_of_keeps_ret; intros w; do 2 eexists; reflexivity|intros ? _].
  apply (post_bind (fun _ => True)); [apply post_true_of_keeps_ret; intros w; do 2 eexists; reflexivity|intros a' _].
  apply (post_bind (fun _ => True)); [apply post_select_builder|intros cmds _].
  apply (post_bind (fun _ => True)); [apply post_sync_header|intros ? _].
  apply (post_bind (fun _ => True)); [apply post_get_git_tag|intros tag _].
  destruct (dry a').
  - apply (post_bind (fun _ => True)); [apply post_emit|intros ? _].
    apply (post_bind (fun _ => True)); [apply post_emit|intros ? _].
    apply post_sys_exit; auto.
  - apply (post_bind (fun _ => True)); [apply post_emit|intros ? _].
    apply (post_bind (fun r => r = 0%Z \/ r = 1%Z)); [apply post_exec_cmds|intros r Hr].
    apply (post_bind (fun _ => True)); [apply post_emit|intros ? _].
    apply (post_bind (fun _ => True)); [apply post_emit|intros ? _].
    apply post_sys_exit; exact Hr.
Qed.

Lemma post_run_tests isfile cwd scriptdir filecmp git_describe os_system l :
  post (fun _ => True) (run_tests isfile cwd scriptdir filecmp git_describe os_system l).
Proof.
  induction l as [|t l IH]; simpl; [apply post_ret; exact I|].
  apply (post_bind (fun _ => True)); [apply post_run_one | intros ? _; exact IH].
Qed.

(** Every run of the script ends with exit status 0 or 1, whatever the
    statuses the shell commands return: [os.system]'s status is folded to
    1 and every [sys.exit] is given 0, 1 or that folded status. *)
Theorem run_main_exit_code_0_or_1 (isfile : string -> bool) (listdir_cwd : list string)
    (cwd scriptdir : string) (filecmp : string -> string -> bool)
    (git_describe : option string) (os_system : nat -> string -> Z) (a : config) :
  let c := fst (run_main isfile listdir_cwd cwd scriptdir filecmp git_describe os_system a) in
  c = 0%Z \/ c = 1%Z.
Proof.
  intros c; subst c. rewrite run_main_outcome, main_prog_run.
  pose proof (post_run_tests isfile cwd scriptdir filecmp git_describe os_system
                (resolved_tests isfile listdir_cwd a)
                (mkWorld [] 0 (resolved_config isfile listdir_cwd a))) as H.
  destruct (run_tests _ _ _ _ _ _ _ _); simpl; [left; reflexivity | exact H].
Qed.

Lemma bind_ret_eq {A B} (m : M A) (f : A -> M B) w x w' :
  m w = Ret x w' -> bind m f w = f x w'.
Proof. intros H; unfold bind; rewrite H; reflexivity. Qed.

(** A run without [-dry-run] whose first test has a supported simulator and
    a [.v]/[.sv] name: after the optional copy of [svut_h.sv] and the tag
    lookup it prints the start banner, runs the test's command list with
    [exec_cmds], then prints the elapsed time and the stop banner and exits
    with the status [exec_cmds] returned.  Both banners carry the git tag,
    or ["v0.0.0"] when [git describe] fails. *)
Theorem run_main_nondry_trace (isfile : string -> bool) (listdir_cwd : list string)
    (cwd scriptdir : string) (filecmp : string -> string -> bool)
    (git_describe : option string) (os_system : nat -> string -> Z) (a : config)
    (t : string) (rest cmds : list string)
    (Hdry : dry a = false)
    (Hres : resolved_tests isfile listdir_cwd a = t :: rest)
    (Hb : builder_cmds isfile (lowered_config isfile listdir_cwd a) t = Some cmds) :
  let r := run_main isfile listdir_cwd cwd scriptdir filecmp git_describe os_system a in
  exists pre w1 w2,
    trace w1 = app pre [EvBanner "Start" (tag_value git_describe)]
    /\ Forall (no_execution_event (copy_cmd cwd scriptdir)) pre
    /\ args w1 = lowered_config isfile listdir_cwd a
    /\ exec_cmds os_system cmds 0 w1 = Ret (fst r) w2
    /\ trace (snd r) = app (trace w2) [EvElapsed; EvBanner "Stop" (tag_value git_describe)].
Proof.
  intros r; subst r.
  rewrite run_main_outcome, (main_prog_first _ _ _ _ _ _ _ _ _ _ Hres).
  unfold run_one; rewrite bind_get_args, bind_set_args, bind_get_args.
  unfold lowered_config in *; cbn [args trace calls].
  rewrite (bind_ret_eq _ _ _ _ _ (builder_cmds_world _ _ _ _ Hb _)).
  assert (Hd : dry (resolved_config isfile listdir_cwd a) = false)
    by (unfold resolved_config; destruct (test a); exact Hdry).
  cbv beta; unfold sync_header, get_git_tag.
  destruct (negb (isfile _) || _); destruct git_describe.
  all: cbv beta delta [bind print emit ret system sys_exit print_event] iota.
  all: cbn [dry set_simulator args trace calls]; rewrite Hd.
  all: match goal with |- context [exec_cmds ?o ?c 0 ?w] =>
         destruct (exec_cmds_stops_at_first_failure o c w) as [rr [new [k [Hrun _]]]];
         rewrite Hrun; exists (removelast (trace w)), w end.
  all: eexists; cbn [trace calls args fst snd tag_value].
  all: split; [rewrite <- !app_assoc; reflexivity|].
  all: split; [simpl; repeat constructor|].
  all: split; [reflexivity|].
  all: split; [exact Hrun|].
  all: cbn [trace snd]; rewrite <- ?app_assoc; reflexivity.
Qed.


Lemma resolved_config_simulator isfile listdir_cwd a :
  simulator (resolved_config isfile listdir_cwd a) = simulator a.
Proof. unfold resolved_config; destruct (test a); reflexivity. Qed.

Lemma resolved_config_set_simulator isfile listdir_cwd a s :
  resolved_config isfile listdir_cwd (set_simulator a s)
  = set_simulator (resolved_config isfile listdir_cwd a) s.
Proof. destruct a as [ta d sm m df v g dr inc]; destruct ta; reflexivity. Qed.

Lemma run_one_simulator_lower isfile cwd scriptdir filecmp git_describe os_system t tr n c s :
  Py.lower s = Py.lower (simulator c) ->
  run_one isfile cwd scriptdir filecmp git_describe os_system t (mkWorld tr n (set_simulator c s))
  = run_one isfile cwd scriptdir filecmp git_describe os_system t (mkWorld tr n c).
Proof.
  intros Hs. unfold run_one; rewrite !bind_get_args, !bind_set_args, !bind_get_args.
  cbn [args trace calls].
  assert (Heq : set_simulator (set_simulator c s) (Py.lower (simulator (set_simulator c s)))
                = set_simulator c (Py.lower (simulator c))).
  { unfold set_simulator; cbn; rewrite Hs; reflexivity. }
  rewrite Heq; reflexivity.
Qed.

(** The simulator name is matched case-insensitively: two configurations
    that differ only in the simulator name, with equal lower-case forms
    (e.g. ["ICARUS"] and ["icarus"]), give the same exit status and the
    same output and command trace. *)
Theorem run_main_simulator_case_insensitive (isfile : string -> bool) (listdir_cwd : list string)
    (cwd scriptdir : string) (filecmp : string -> string -> bool)
    (git_describe : option string) (os_system : nat -> string -> Z) (a : config) (s : string)
    (Hs : Py.lower s = Py.lower (simulator a)) :
  let r1 := run_main isfile listdir_cwd cwd scriptdir filecmp git_describe os_system
              (set_simulator a s) in
  let r2 := run_main isfile listdir_cwd cwd scriptdir filecmp git_describe os_system a in
  fst r1 = fst r2 /\ trace (snd r1) = trace (snd r2).
Proof.
  intros r1 r2; subst r1 r2.
  rewrite !run_main_outcome, !main_prog_run.
  change (resolved_tests isfile listdir_cwd (set_simulator a s))
    with (resolved_tests isfile listdir_cwd a).
  rewrite resolved_config_set_simulator.
  destruct (resolved_tests isfile listdir_cwd a) as [|t r]; [split; reflexivity|].
  rewrite !run_tests_cons, run_one_simulator_lower;
    [split; reflexivity | rewrite resolved_config_simulator; exact Hs].
Qed.

(** A simulator name that contains none of ["iverilog"], ["icarus"] and
    ["verilator"] (after lower-casing) stops the run at the first test with
    status 1; the only output is the error message and no process is
    started. *)
Theorem run_main_unsupported_simulator (isfile : string -> bool) (listdir_cwd : list string)
    (cwd scriptdir : string) (filecmp : string -> string -> bool)
    (git_describe : option string) (os_system : nat -> string -> Z) (a : config)
    (t : string) (rest : list string)
    (Hres : resolved_tests isfile listdir_cwd a = t :: rest)
    (Hiv : Py.contains "iverilog" (Py.lower (simulator a)) = false)
    (Hic : Py.contains "icarus" (Py.lower (simulator a)) = false)
    (Hvl : Py.contains "verilator" (Py.lower (simulator a)) = false) :
  let r := run_main isfile listdir_cwd cwd scriptdir filecmp git_describe os_system a in
  fst r = 1%Z
  /\ trace (snd r) = [EvPrint "ERROR: Simulator not supported. Icarus is the only option"].
Proof.
  intros r; subst r.
  rewrite run_main_outcome, (main_prog_first _ _ _ _ _ _ _ _ _ _ Hres).
  unfold run_one; rewrite bind_get_args, bind_set_args, bind_get_args.
  cbn [args trace calls]. unfold bind at 1, select_builder.
  cbn [simulator set_simulator]. rewrite resolved_config_simulator, Hiv, Hic, Hvl.
  split; reflexivity.
Qed.

(** With no test to run (no file discovered, or an empty [-test] list) the
    script prints nothing, starts no process and ends with status 0. *)
Theorem run_main_no_tests (isfile : string -> bool) (listdir_cwd : list string)
    (cwd scriptdir : string) (filecmp : string -> string -> bool)
    (git_describe : option string) (os_system : nat -> string -> Z) (a : config)
    (Hres : resolved_tests isfile listdir_cwd a = []) :
  run_main isfile listdir_cwd cwd scriptdir filecmp git_describe os_system a
  = (0%Z, mkWorld [] 0 (resolved_config isfile listdir_cwd a)).
Proof. rewrite run_main_outcome, main_prog_run, Hres; reflexivity. Qed.

Lemma add_defines_eq a cmd : add_defines a cmd = cmd ++ get_defines (define a).
Proof.
  unfold add_defines; destruct (define a) as [|c r] eqn:Hd; simpl.
  - rewrite append_empty_r; reflexivity.
  - reflexivity.
Qed.

Lemma existing_dotfiles_eq isfile l : existing_dotfiles isfile l = spaced (filter isfile l).
Proof.
  induction l as [|d l IH]; simpl; [reflexivity|].
  destruct (isfile d); simpl; rewrite IH; [|reflexivity].
  rewrite append_assoc; reflexivity.
Qed.

Lemma truthy_spaced_cons d l : Py.truthy (spaced (d :: l)) = true.
Proof. simpl; destruct d; reflexivity. Qed.

(** The dot-file part of both compile commands: the dot files that do not
    exist are dropped, each existing one is followed by a space, the list
    is introduced by [-f ] and closed by one more space, and when no dot
    file exists (or none is given) no [-f] flag is added at all. *)
Theorem add_dotfiles_eq (isfile : string -> bool) (a : config) (cmd : string) :
  add_dotfiles isfile a cmd = cmd ++ dotfile_flag isfile (dotfile a).
Proof.
  unfold add_dotfiles, dotfile_flag.
  destruct (dotfile a) as [|d l] eqn:Hd; [simpl; rewrite append_empty_r; reflexivity|].
  rewrite <- Hd, existing_dotfiles_eq.
  destruct (filter isfile (dotfile a)) as [|e m].
  - simpl; rewrite append_empty_r; reflexivity.
  - rewrite truthy_spaced_cons; reflexivity.
Qed.

Lemma add_incdirs_eq incs cmd : add_incdirs incs cmd = cmd ++ incdir_flags incs.
Proof.
  revert cmd; induction incs as [|inc incs IH]; intros cmd; simpl.
  - rewrite append_empty_r; reflexivity.
  - rewrite IH, !append_assoc; simpl; rewrite ?append_assoc; reflexivity.
Qed.

(** The Icarus command list of a [.v]/[.sv] test: first the removal of
    [icarus.out], then the compile command (fixed flags, the [-D] flags,
    the dot-file flag, one [-I] followed by the space-separated include
    directories when there are any, and the test path with a space), then
    the [vvp] command with the VPI string spliced in before [icarus.out]
    and [-lxt;] appended in GUI mode, and in GUI mode only the viewer
    command. *)
Theorem create_iverilog_cmds (isfile : string -> bool) (a : config) (t : string) (w : world)
    (Hext : bad_extension t = false) :
  create_iverilog isfile a t w
  = Ret (app ["rm -f icarus.out";
              "iverilog -g2012 -Wall -o icarus.out " ++ get_defines (define a)
                ++ dotfile_flag isfile (dotfile a)
                ++ (match include a with
                    | [] => EmptyString
                    | incs => "-I " ++ Py.join " " incs ++ " "
                    end)
                ++ t ++ " ";
              "vvp " ++ (if Py.truthy (vpi a) then vpi a ++ " " else EmptyString)
                ++ "icarus.out " ++ (if gui a then "-lxt;" else EmptyString)]
             (if gui a then
                [if isfile "wave.gtkw" then "gtkwave *.lxt wave.gtkw &" else "gtkwave *.lxt &"]
              else [])) w.
Proof.
  cbv beta zeta delta [create_iverilog]. rewrite Hext. cbv iota.
  rewrite add_defines_eq, add_dotfiles_eq.
  unfold ret.
  destruct (include a) as [|i l];
    destruct (Py.truthy (vpi a)); destruct (gui a); try destruct (isfile "wave.gtkw").
  all: rewrite ?append_assoc; reflexivity.
Qed.

(** The Verilator compile command of a [.v]/[.sv] test: the fixed flags,
    the [-D] flags, the dot-file flag, one [+incdir+<dir> ] per include
    directory, the top-module flag, the test path and, last, the
    Verilator main file. *)
Theorem create_verilator_compile_cmd (isfile : string -> bool) (a : config) (t : string)
    (w : world) (Hext : bad_extension t = false) :
  let n := testname_of t in
  create_verilator isfile a t w
  = Ret ["rm -fr build";
         "verilator -Wall --trace --Mdir build +1800-2017ext+sv +1800-2005ext+v -Wno-STMTDLY -Wno-UNUSED -Wno-UNDRIVEN -Wno-PINCONNECTEMPTY -Wpedantic -Wno-VARHIDDEN -Wno-lint "
           ++ get_defines (define a) ++ dotfile_flag isfile (dotfile a)
           ++ incdir_flags (include a)
           ++ "-cc --exe --build -j --top-module " ++ n ++ " " ++ t ++ " " ++ main a;
         "make -j -C build -f V" ++ n ++ ".mk V" ++ n;
         "build/V" ++ n] w.
Proof.
  intros n.
  cbv beta zeta delta [create_verilator]. rewrite Hext. cbv iota.
  rewrite add_defines_eq, add_dotfiles_eq, add_incdirs_eq.
  unfold ret. rewrite !append_assoc. reflexivity.
Qed.

(** ** Witnesses of the further properties *)

Lemma run_main_nondry_trace_witness :
  dry (mkConfig (TestList ["tb_adder.sv"]) ["files.f"] "icarus" "sim_main.cpp"
         EmptyString EmptyString false false []) = false
  /\ resolved_tests (fun _ => true) []
       (mkConfig (TestList ["tb_adder.sv"]) ["files.f"] "icarus" "sim_main.cpp"
          EmptyString EmptyString false false []) = "tb_adder.sv" :: []
  /\ builder_cmds (fun _ => true)
       (lowered_config (fun _ => true) []
          (mkConfig (TestList ["tb_adder.sv"]) ["files.f"] "icarus" "sim_main.cpp"
             EmptyString EmptyString false false [])) "tb_adder.sv"
     = Some ["rm -f icarus.out"; "iverilog -g2012 -Wall -o icarus.out -f files.f  tb_adder.sv ";
             "vvp icarus.out "]
  /\ let r := run_main (fun _ => true) [] "/work" "/svut" (fun _ _ => false) None
                (fun n _ => if Nat.eqb n 2 then 1%Z else 0%Z)
                (mkConfig (TestList ["tb_adder.sv"]) ["files.f"] "icarus" "sim_main.cpp"
                   EmptyString EmptyString false false []) in
     exists pre w1 w2,
       trace w1 = app pre [EvBanner "Start" (tag_value None)]
       /\ Forall (no_execution_event (copy_cmd "/work" "/svut")) pre
       /\ args w1 = lowered_config (fun _ => true) []
                      (mkConfig (TestList ["tb_adder.sv"]) ["files.f"] "icarus" "sim_main.cpp"
                         EmptyString EmptyString false false [])
       /\ exec_cmds (fun n _ => if Nat.eqb n 2 then 1%Z else 0%Z)
            ["rm -f icarus.out"; "iverilog -g2012 -Wall -o icarus.out -f files.f  tb_adder.sv ";
             "vvp icarus.out "] 0 w1 = Ret (fst r) w2
       /\ trace (snd r) = app (trace w2) [EvElapsed; EvBanner "Stop" (tag_value None)].
Proof.
  split; [reflexivity|]. split; [reflexivity|]. split; [vm_compute; reflexivity|].
  apply (run_main_nondry_trace (fun _ => true) [] "/work" "/svut" (fun _ _ => false) None
           (fun n _ => if Nat.eqb n 2 then 1%Z else 0%Z) _ "tb_adder.sv" []);
    [reflexivity | reflexivity | vm_compute; reflexivity].
Defined.

Lemma run_main_simulator_case_insensitive_witness :
  Py.lower "ICARUS" = Py.lower (simulator (mkConfig (TestList ["tb_adder.sv"]) [] "icarus"
                                           "sim_main.cpp" EmptyString EmptyString false false []))
  /\ let r1 := run_main (fun _ => true) [] "/work" "/svut" (fun _ _ => true) (Some "v1.0")
                 (fun _ _ => 0%Z)
                 (set_simulator (mkConfig (TestList ["tb_adder.sv"]) [] "icarus"
                                   "sim_main.cpp" EmptyString EmptyString false false []) "ICARUS") in
     let r2 := run_main (fun _ => true) [] "/work" "/svut" (fun _ _ => true) (Some "v1.0")
                 (fun _ _ => 0%Z)
                 (mkConfig (TestList ["tb_adder.sv"]) [] "icarus"
                    "sim_main.cpp" EmptyString EmptyString false false []) in
     fst r1 = fst r2 /\ trace (snd r1) = trace (snd r2).
Proof.
  split; [reflexivity|].
  apply run_main_simulator_case_insensitive; reflexivity.
Defined.

Lemma run_main_unsupported_simulator_witness :
  resolved_tests (fun _ => true) []
    (mkConfig (TestList ["tb_adder.sv"]) [] "ModelSim" "sim_main.cpp"
       EmptyString EmptyString false false []) = "tb_adder.sv" :: []
  /\ Py.contains "iverilog" (Py.lower "ModelSim") = false
  /\ Py.contains "icarus" (Py.lower "ModelSim") = false
  /\ Py.contains "verilator" (Py.lower "ModelSim") = false
  /\ let r := run_main (fun _ => true) [] "/work" "/svut" (fun _ _ => true) (Some "v1.0")
                (fun _ _ => 0%Z)
                (mkConfig (TestList ["tb_adder.sv"]) [] "ModelSim" "sim_main.cpp"
                   EmptyString EmptyString false false []) in
     fst r = 1%Z
     /\ trace (snd r) = [EvPrint "ERROR: Simulator not supported. Icarus is the only option"].
Proof.
  split; [reflexivity|]. split; [vm_compute; reflexivity|].
  split; [vm_compute; reflexivity|]. split; [vm_compute; reflexivity|].
  apply (run_main_unsupported_simulator (fun _ => true) [] "/work" "/svut" (fun _ _ => true)
           (Some "v1.0") (fun _ _ => 0%Z) _ "tb_adder.sv" []);
    [reflexivity | vm_compute; reflexivity | vm_compute; reflexivity | vm_compute; reflexivity].
Defined.

Lemma run_main_no_tests_witness :
  resolved_tests (fun _ => true) ["README.md"; "adder.sv"]
    (mkConfig TestAll ["files.f"] "icarus" "sim_main.cpp" EmptyString EmptyString false false [])
  = []
  /\ run_main (fun _ => true) ["README.md"; "adder.sv"] "/work" "/svut" (fun _ _ => true)
       (Some "v1.0") (fun _ _ => 0%Z)
       (mkConfig TestAll ["files.f"] "icarus" "sim_main.cpp" EmptyString EmptyString false false [])
     = (0%Z, mkWorld [] 0 (resolved_config (fun _ => true) ["README.md"; "adder.sv"]
               (mkConfig TestAll ["files.f"] "icarus" "sim_main.cpp"
                  EmptyString EmptyString false false []))).
Proof.
  split; [vm_compute; reflexivity|].
  apply run_main_no_tests; vm_compute; reflexivity.
Defined.

Lemma create_iverilog_cmds_witness :
  bad_extension "tb_adder.sv" = false
  /\ create_iverilog (fun _ => true)
       (mkConfig (TestList ["tb_adder.sv"]) ["files.f"] "icarus" "sim_main.cpp"
          "WIDTH=8" "-M. -mMyVPI" true false ["rtl"; "inc"]) "tb_adder.sv"
       (mkWorld [] 0 (mkConfig (TestList ["tb_adder.sv"]) [] "icarus" "sim_main.cpp"
                        EmptyString EmptyString false false []))
     = Ret (app ["rm -f icarus.out";
                 "iverilog -g2012 -Wall -o icarus.out " ++ get_defines "WIDTH=8"
                   ++ dotfile_flag (fun _ => true) ["files.f"]
                   ++ (match ["rtl"; "inc"] with
                       | [] => EmptyString
                       | incs => "-I " ++ Py.join " " incs ++ " "
                       end)
                   ++ "tb_adder.sv" ++ " ";
                 "vvp " ++ (if Py.truthy "-M. -mMyVPI" then "-M. -mMyVPI" ++ " " else EmptyString)
                   ++ "icarus.out " ++ (if true then "-lxt;" else EmptyString)]
                (if true then
                   [if (fun _ => true) "wave.gtkw" then "gtkwave *.lxt wave.gtkw &"
                    else "gtkwave *.lxt &"]
                 else []))
           (mkWorld [] 0 (mkConfig (TestList ["tb_adder.sv"]) [] "icarus" "sim_main.cpp"
                            EmptyString EmptyString false false [])).
Proof.
  split; [reflexivity|].
  apply (create_iverilog_cmds (fun _ => true)
           (mkConfig (TestList ["tb_adder.sv"]) ["files.f"] "icarus" "sim_main.cpp"
              "WIDTH=8" "-M. -mMyVPI" true false ["rtl"; "inc"])).
  reflexivity.
Defined.

Lemma create_verilator_compile_cmd_witness :
  bad_extension "./dir/my_test.sv" = false
  /\ let n := testname_of "./dir/my_test.sv" in
     create_verilator (fun _ => false)
       (mkConfig (TestList ["./dir/my_test.sv"]) ["files.f"] "verilator" "sim_main.cpp"
          "A=1;B" EmptyString false false ["rtl"; "inc"]) "./dir/my_test.sv"
       (mkWorld [] 0 (mkConfig (TestList []) [] "verilator" "sim_main.cpp"
                        EmptyString EmptyString false false []))
     = Ret ["rm -fr build";
            "verilator -Wall --trace --Mdir build +1800-2017ext+sv +1800-2005ext+v -Wno-STMTDLY -Wno-UNUSED -Wno-UNDRIVEN -Wno-PINCONNECTEMPTY -Wpedantic -Wno-VARHIDDEN -Wno-lint "
              ++ get_defines "A=1;B" ++ dotfile_flag (fun _ => false) ["files.f"]
              ++ incdir_flags ["rtl"; "inc"]
              ++ "-cc --exe --build -j --top-module " ++ n ++ " " ++ "./dir/my_test.sv" ++ " "
              ++ "sim_main.cpp";
            "make -j -C build -f V" ++ n ++ ".mk V" ++ n;
            "build/V" ++ n]
           (mkWorld [] 0 (mkConfig (TestList []) [] "verilator" "sim_main.cpp"
                            EmptyString EmptyString false false [])).
Proof.
  split; [reflexivity|].
  apply (create_verilator_compile_cmd (fun _ => false)
           (mkConfig (TestList ["./dir/my_test.sv"]) ["files.f"] "verilator" "sim_main.cpp"
              "A=1;B" EmptyString false false ["rtl"; "inc"])).
  reflexivity.
Defined.
